(** * Express / Prisma authentication gateway (server.js)

    A shallow embedding of the request handlers and middleware of
    [server.js]: registration, login, logout, the JWT authentication
    middleware, the admin authorization middleware and the two protected
    routes.  The handlers are written in a small state-and-exception monad
    over the server-side world (the Prisma user table plus a trace of the
    calls made to bcrypt and to the store); the npm libraries the file
    calls (bcryptjs, jsonwebtoken, Prisma, Express) are modelled by their
    documented behaviour, the cryptography itself staying abstract behind
    two interfaces. *)

From Stdlib Require Import ZArith Ascii String DecimalString DecimalN.
From stdpp Require Import base option list strings gmap.

Set Warnings "-register-all".
Local Open Scope string_scope.

(** ** JavaScript values, as [express.json()] delivers them *)

Module JS.

(** A parsed JSON value, or [undefined] for a property that is not there.
    [VNum] holds integral numbers; all the handlers observe of a number is
    whether it is zero and that it is not a string. *)
Inductive value : Type :=
| VUndefined
| VNull
| VBool (b : bool)
| VNum (n : Z)
| VStr (s : string)
| VArr (items : list value)
| VObj (fields : list (string * value)).

(** ToBoolean: [undefined], [null], [false], [0] and [""] are falsy. *)
Definition truthy (v : value) : bool :=
  match v with
  | VUndefined | VNull => false
  | VBool b => b
  | VNum n => negb (n =? 0)%Z
  | VStr s => negb (String.eqb s "")
  | VArr _ | VObj _ => true
  end.

(** [a || b] *)
Definition or_else (a b : value) : value := if truthy a then a else b.

(** Own-property lookup in an object literal; a later duplicate key wins,
    as in [JSON.parse]. *)
Fixpoint lookup_field (k : string) (fs : list (string * value)) : value :=
  match fs with
  | [] => VUndefined
  | (k', v) :: rest =>
      match lookup_field k rest with
      | VUndefined => if String.eqb k' k then v else VUndefined
      | later => later
      end
  end.

(** [s.split(sep)] for a one-character separator.  The result always has
    a first piece, so the last branch is never taken. *)
Fixpoint split (sep : ascii) (s : string) : list string :=
  match s with
  | EmptyString => [EmptyString]
  | String c rest =>
      if Ascii.eqb c sep then EmptyString :: split sep rest
      else match split sep rest with
           | w :: ws => String c w :: ws
           | [] => [String c EmptyString]
           end
  end.

(** Whether the character [c] occurs in [s]. *)
Fixpoint contains (c : ascii) (s : string) : bool :=
  match s with
  | EmptyString => false
  | String c' rest => Ascii.eqb c' c || contains c rest
  end.

(** Truthiness of a value that is a string or [undefined]. *)
Definition truthy_str (o : option string) : bool :=
  match o with
  | Some s => negb (String.eqb s "")
  | None => false
  end.

End JS.
Import JS.

(** ** Exceptions and the handler monad *)

(** What a library call can throw.  A handler that lets one of these escape
    produces no response of its own (an unhandled rejection). *)
Inductive error : Type :=
| TypeError
| BcryptIllegalArguments
| PrismaClientValidationError
| PrismaUniqueConstraintViolation
| JwtSecretMissing.

Inductive result (A : Type) : Type :=
| Ok (a : A)
| Throw (e : error).
Arguments Ok {A} a.
Arguments Throw {A} e.

(** The calls the trace records: password hashing and credential-store
    access. *)
Inductive event : Type :=
| EvHash
| EvCompare
| EvFindUnique
| EvCreate.

Module User.

(** Modelled from the spec: the Prisma schema declaring the [user] model is
    not part of [server.js].  A row has a system-generated unique [id], a
    unique [email], the stored [password] hash and a [role]; these are also
    the columns the handlers read and write. *)
Record t : Type := mk {
  id : N;
  email : string;
  password : string;
  role : string
}.

End User.

(** The server-side world: the [user] table keyed by its unique [email]
    column, the next generated id, and the trace of library calls. *)
Record World : Type := mkWorld {
  users : gmap string User.t;
  next_id : N;
  trace : list event
}.

Definition M (A : Type) : Type := World -> result A * World.

#[export] Instance M_ret : MRet M := fun A a w => (Ok a, w).

#[export] Instance M_bind : MBind M := fun A B f m w =>
  match m w with
  | (Ok a, w') => f a w'
  | (Throw e, w') => (Throw e, w')
  end.

Definition throw {A} (e : error) : M A := fun w => (Throw e, w).

(** A computation that touches no state. *)
Definition lift {A} (r : result A) : M A := fun w => (r, w).

(** [try { m } catch (error) { h }] *)
Definition try_catch {A} (m : M A) (h : error -> M A) : M A := fun w =>
  match m w with
  | (Ok a, w') => (Ok a, w')
  | (Throw e, w') => h e w'
  end.

Definition record (ev : event) : M unit := fun w =>
  (Ok tt, mkWorld (users w) (next_id w) (trace w ++ [ev])).

(** ** The process environment of one request *)

(** [process.env.JWT_SECRET], and the two ambient inputs the libraries read
    while a request is served: the wall clock in seconds (jsonwebtoken) and
    the random bytes bcrypt draws its salt from. *)
Record Env : Type := mkEnv {
  JWT_SECRET : option string;
  now : N;
  entropy : string
}.

(** ** bcryptjs *)

(** The hashing primitive: a salted hash at a cost factor, and the check of
    a plaintext against a stored hash.  The one law the server relies on is
    that a password verifies against its own hash. *)
Class Bcrypt : Type := {
  bcrypt_digest : string -> N -> string -> string;
  bcrypt_check : string -> string -> bool;
  bcrypt_check_digest pw rounds salt :
    bcrypt_check pw (bcrypt_digest pw rounds salt) = true
}.

(** ** jsonwebtoken *)

Module Jwt.

(** The decoded payload of a token: the two claims the login handler
    embeds, with the [iat] and [exp] fields [jwt.sign] adds. *)
Record claims : Type := mkClaims {
  userId : N;
  role : string;
  iat : N;
  exp : N
}.

(** What [jwt.verify] passes as [err]. *)
Inductive verify_error : Type :=
| JsonWebTokenError
| TokenExpiredError.

(** The compact serialization: [encode key c] is the signed token string
    and [decode key t] checks the signature of [t] under [key] and parses
    its payload.  A token decodes under the key that signed it, and its
    text (base64url segments joined by dots) is non-empty and has no
    space. *)
Class Jws : Type := {
  encode : string -> claims -> string;
  decode : string -> string -> option claims;
  decode_encode key c : decode key (encode key c) = Some c;
  encode_nonempty key c : encode key c <> "";
  encode_no_space key c : contains " " (encode key c) = false
}.

End Jwt.

(** ** Express responses and requests *)

Inductive Body : Type :=
| Text (s : string)
| Json (v : value).

Record Response : Type := mkResponse {
  status : nat;
  body : Body
}.

(** [res.status(code).send(text)] *)
Definition send (code : nat) (text : string) : Response := mkResponse code (Text text).

(** [res.status(code).json(v)] *)
Definition json (code : nat) (v : value) : Response := mkResponse code (Json v).

(** The reason phrase [res.sendStatus] writes as the body. *)
Definition status_message (code : nat) : string :=
  match code with
  | 200 => "OK"
  | 401 => "Unauthorized"
  | 403 => "Forbidden"
  | _ => NilEmpty.string_of_uint (Nat.to_uint code)
  end.

(** [res.sendStatus(code)] *)
Definition sendStatus (code : nat) : Response := mkResponse code (Text (status_message code)).

(** What the handlers read of a request: the parsed body, the
    [authorization] header, and the [user] property the authentication
    middleware sets. *)
Record Request : Type := mkRequest {
  req_body : value;
  headers_authorization : option string;
  req_user : option Jwt.claims
}.

(** A middleware either answers the request or calls [next()]. *)
Inductive step : Type :=
| Respond (r : Response)
| Next (req : Request).

(** [res.json(user)]: the row as a JSON object, one property per column. *)
Definition user_json (u : User.t) : value :=
  VObj [("id", VNum (Z.of_N (User.id u))); ("email", VStr (User.email u));
        ("password", VStr (User.password u)); ("role", VStr (User.role u))].

(** Property read [obj.k], as the destructuring of [req.body] performs it:
    reading from [undefined] or [null] throws, and a value that is not an
    object literal has none of the properties asked for. *)
Definition property (obj : value) (k : string) : result value :=
  match obj with
  | VUndefined | VNull => Throw TypeError
  | VObj fields => Ok (lookup_field k fields)
  | _ => Ok VUndefined
  end.

(** ** The server *)

Section Server.

Context {bcrypt : Bcrypt} {jws : Jwt.Jws}.

(** *** Library calls *)

(** [bcrypt.hash(s, rounds)]: rejects unless [s] is a string. *)
Definition bcrypt_hash (env : Env) (s : value) (rounds : N) : M string :=
  _ ← record EvHash;
  match s with
  | VStr pw => mret (bcrypt_digest pw rounds (entropy env))
  | _ => throw BcryptIllegalArguments
  end.

(** [bcrypt.compare(s, hash)]: rejects unless [s] is a string. *)
Definition bcrypt_compare (s : value) (hash : string) : M bool :=
  _ ← record EvCompare;
  match s with
  | VStr pw => mret (bcrypt_check pw hash)
  | _ => throw BcryptIllegalArguments
  end.

(** [prisma.user.findUnique({ where: { email } })] over the [user] model:
    the lookup is by the unique [email] column and yields the row or
    [null]; an argument that is not a string is refused by the client. *)
Definition prisma_user_findUnique (email : value) : M (option User.t) :=
  _ ← record EvFindUnique;
  match email with
  | VStr e => fun w => (Ok (users w !! e), w)
  | _ => throw PrismaClientValidationError
  end.

(** [prisma.user.create({ data })] over the same model: the row gets a
    fresh generated [id]; the unique constraint on [email] makes the call
    throw, leaving the table as it was, when the email is taken; column
    values that are not strings are refused by the client. *)
Definition prisma_user_create (email : value) (password : string) (role : value) : M User.t :=
  _ ← record EvCreate;
  match email, role with
  | VStr e, VStr r => fun w =>
      match users w !! e with
      | Some _ => (Throw PrismaUniqueConstraintViolation, w)
      | None =>
          let user := User.mk (next_id w) e password r in
          (Ok user, mkWorld (<[e := user]> (users w)) (N.succ (next_id w)) (trace w))
      end
  | _, _ => throw PrismaClientValidationError
  end.

(** The span ["1h"] in seconds. *)
Definition expiresIn_1h : N := 60 * 60.

(** [jwt.sign({ userId, role }, secret, { expiresIn })]: throws without a
    secret; otherwise stamps [iat] with the clock and [exp] with
    [iat + expiresIn] and serializes. *)
Definition jwt_sign (env : Env) (userId : N) (role : string)
    (secret : option string) (expiresIn : N) : M string :=
  match secret with
  | Some key =>
      if String.eqb key "" then throw JwtSecretMissing
      else mret (Jwt.encode key (Jwt.mkClaims userId role (now env) (now env + expiresIn)%N))
  | None => throw JwtSecretMissing
  end.

(** [jwt.verify(token, secret, callback)]: the pair [(err, user)] handed
    to the callback.  The token must decode under the secret, and the
    clock must not have reached its [exp]. *)
Definition jwt_verify (env : Env) (token : string) (secret : option string)
    : Jwt.verify_error + Jwt.claims :=
  match secret with
  | Some key =>
      if String.eqb key "" then inl Jwt.JsonWebTokenError
      else match Jwt.decode key token with
           | Some user =>
               if (Jwt.exp user <=? now env)%N then inl Jwt.TokenExpiredError
               else inr user
           | None => inl Jwt.JsonWebTokenError
           end
  | None => inl Jwt.JsonWebTokenError
  end.

(** *** POST /register *)

Definition register (env : Env) (req : Request) : M Response :=
  email ← lift (property (req_body req) "email");
  password ← lift (property (req_body req) "password");
  role ← lift (property (req_body req) "role");
  if negb (truthy email) || negb (truthy password) then
    mret (send 400 "Email and password are required")
  else
    hashedPassword ← bcrypt_hash env password 10;
    try_catch
      (user ← prisma_user_create email hashedPassword (or_else role (VStr "user"));
       mret (json 201 (user_json user)))
      (fun _ => mret (send 400 "User already exists")).

(** *** POST /login *)

Definition login (env : Env) (req : Request) : M Response :=
  email ← lift (property (req_body req) "email");
  password ← lift (property (req_body req) "password");
  user ← prisma_user_findUnique email;
  rejected ← match user with
             | None => mret true
             | Some u =>
                 matches ← bcrypt_compare password (User.password u);
                 mret (negb matches)
             end;
  if rejected : bool then
    mret (send 401 "Invalid email or password")
  else
    match user with
    | Some u =>
        token ← jwt_sign env (User.id u) (User.role u) (JWT_SECRET env) expiresIn_1h;
        mret (json 200 (VObj [("token", VStr token)]))
    | None => throw TypeError
    end.

(** *** POST /logout *)

Definition logout (env : Env) (req : Request) : M Response :=
  mret (sendStatus 200).

(** *** Middleware *)

(** [req.headers.authorization?.split(" ")[1]] *)
Definition bearer_token (req : Request) : option string :=
  match headers_authorization req with
  | Some header => split " " header !! 1%nat
  | None => None
  end.

Definition authenticateJWT (env : Env) (req : Request) : M step :=
  let token := bearer_token req in
  match token with
  | Some t =>
      if truthy_str token then
        match jwt_verify env t (JWT_SECRET env) with
        | inl err => mret (Respond (sendStatus 403))
        | inr user => mret (Next (mkRequest (req_body req) (headers_authorization req) (Some user)))
        end
      else mret (Respond (sendStatus 401))
  | None => mret (Respond (sendStatus 401))
  end.

Definition authorizeAdmin (req : Request) : M step :=
  match req_user req with
  | Some user =>
      if negb (String.eqb (Jwt.role user) "admin") then mret (Respond (sendStatus 403))
      else mret (Next req)
  | None => throw TypeError
  end.

(** [app.get(path, mw1, ..., handler)]: the middleware run in order, each
    either answering or passing the request on. *)
Fixpoint route (middleware : list (Request -> M step)) (handler : Request -> M Response)
    (req : Request) : M Response :=
  match middleware with
  | [] => handler req
  | mw :: rest =>
      s ← mw req;
      match s with
      | Respond r => mret r
      | Next req' => route rest handler req'
      end
  end.

(** *** GET /admin and GET /user *)

Definition get_admin (env : Env) : Request -> M Response :=
  route [authenticateJWT env; authorizeAdmin] (fun req => mret (send 200 "Welcome Admin")).

Definition get_user (env : Env) : Request -> M Response :=
  route [authenticateJWT env] (fun req => mret (send 200 "Welcome User")).

(** *** The routing table *)

Inductive endpoint : Type :=
| PostRegister
| PostLogin
| PostLogout
| GetAdmin
| GetUser.

Definition serve (env : Env) (ep : endpoint) : Request -> M Response :=
  match ep with
  | PostRegister => register env
  | PostLogin => login env
  | PostLogout => logout env
  | GetAdmin => get_admin env
  | GetUser => get_user env
  end.

(** The world after a run of requests, each served to completion. *)
Fixpoint serve_all (traffic : list (Env * endpoint * Request)) (w : World) : World :=
  match traffic with
  | [] => w
  | (env, ep, req) :: rest => serve_all rest (snd (serve env ep req w))
  end.

(** *** What the table holds, and what each endpoint can answer *)

(** The shape of a row as the registration handler writes it: filed under
    its own email, email and role non-empty, and the password column a
    cost-10 bcrypt hash of a non-empty password. *)
Definition row_ok (e : string) (row : User.t) : Prop :=
  User.email row = e
  /\ e <> ""
  /\ User.role row <> ""
  /\ exists pw salt, pw <> "" /\ User.password row = bcrypt_digest pw 10 salt.

Definition rows_ok (w : World) : Prop :=
  forall e row, users w !! e = Some row -> row_ok e row.

(** The status codes the handlers of an endpoint send. *)
Definition statuses (ep : endpoint) : list nat :=
  match ep with
  | PostRegister => [201; 400]
  | PostLogin => [200; 401]
  | PostLogout => [200]
  | GetAdmin => [200; 401; 403]
  | GetUser => [200; 401; 403]
  end.

End Server.

(** ** An executable implementation of the two interfaces

    Small stand-ins for bcryptjs and for the JWS serialization, with no
    cryptographic strength: they exist so that the server can be run on
    concrete requests, and to show that the interfaces are inhabited. *)

Module Sample.

Definition decimal (n : N) : string := NilEmpty.string_of_uint (N.to_uint n).

Definition undecimal (s : string) : option N :=
  N.of_uint <$> NilEmpty.uint_of_string s.

(** One letter of [a..p] per half byte. *)
Definition letter (n : nat) : ascii := ascii_of_nat (97 + n).
Definition unletter (c : ascii) : nat := nat_of_ascii c - 97.

Fixpoint armor (s : string) : string :=
  match s with
  | EmptyString => EmptyString
  | String c rest =>
      String (letter (nat_of_ascii c / 16))
        (String (letter (nat_of_ascii c mod 16)) (armor rest))
  end.

Fixpoint unarmor (s : string) : option string :=
  match s with
  | EmptyString => Some EmptyString
  | String hi (String lo rest) =>
      String (ascii_of_nat (unletter hi * 16 + unletter lo)) <$> unarmor rest
  | String _ EmptyString => None
  end.

Fixpoint join (sep : ascii) (parts : list string) : string :=
  match parts with
  | [] => EmptyString
  | [p] => p
  | p :: rest => p ++ String sep (join sep rest)
  end.

Definition checksum (pw : string) : nat :=
  fold_left (fun acc c => (acc * 31 + nat_of_ascii c) mod 997) (list_ascii_of_string pw) 7.

Definition digest (pw : string) (rounds : N) (salt : string) : string :=
  (decimal (N.of_nat (checksum pw)) ++ "$") ++ decimal rounds ++ "$" ++ salt.

Definition check (pw hash : string) : bool :=
  String.prefix (decimal (N.of_nat (checksum pw)) ++ "$") hash.

Definition encode (key : string) (c : Jwt.claims) : string :=
  join "." [armor key; armor (Jwt.role c); decimal (Jwt.userId c);
            decimal (Jwt.iat c); decimal (Jwt.exp c)].

Definition decode (key token : string) : option Jwt.claims :=
  match split "." token with
  | [k; r; u; i; e] =>
      if String.eqb k (armor key) then
        role ← unarmor r;
        userId ← undecimal u;
        iat ← undecimal i;
        exp ← undecimal e;
        Some (Jwt.mkClaims userId role iat exp)
      else None
  | _ => None
  end.

(** A deployment, its clock an hour later, and a few requests. *)
Definition env0 : Env := mkEnv (Some "s3cret") 1700000000 "salt".
Definition late : Env := mkEnv (Some "s3cret") 1700003600 "salt".

Definition post (body : value) : Request := mkRequest body None None.
Definition get (authorization : option string) : Request :=
  mkRequest VUndefined authorization None.

Definition alice : value := VObj [("email", VStr "a@x.com"); ("password", VStr "pw1")].
Definition alice_other_password : value :=
  VObj [("email", VStr "a@x.com"); ("password", VStr "pw2")].
Definition alice_no_password : value := VObj [("email", VStr "a@x.com")].
Definition no_email : value := VObj [("password", VStr "pw1")].
Definition root : value :=
  VObj [("email", VStr "r@x.com"); ("password", VStr "pw9"); ("role", VStr "admin")].

Definition alice_row : User.t := User.mk 1 "a@x.com" "867$10$salt" "user".
Definition alice_token : string := "hdddgdhcgfhe.hfhdgfhc.1.1700000000.1700003600".

Definition numeric_password : value :=
  VObj [("email", VStr "n@x.com"); ("password", VNum 123456)].
Definition numeric_role : value :=
  VObj [("email", VStr "n@x.com"); ("password", VStr "pw5"); ("role", VNum 7)].
Definition no_secret : Env := mkEnv None 1700000000 "salt".
Definition alice_empty_password : value :=
  VObj [("email", VStr "a@x.com"); ("password", VStr "")].
Definition alice_numeric_password : value :=
  VObj [("email", VStr "a@x.com"); ("password", VNum 123456)].
Definition alice_claims : Jwt.claims := Jwt.mkClaims 1 "user" 1700000000 1700003600.

Definition empty : World := mkWorld ∅ 1 [].
Definition with_alice : World := mkWorld {[ "a@x.com" := alice_row ]} 2 [].

End Sample.

(** * Properties *)

(** ** Splitting strings *)

Lemma split_nonempty sep s : split sep s <> [].
Proof.
  destruct s as [|c rest]; simpl; [done|].
  destruct (Ascii.eqb c sep); [done|].
  by destruct (split sep rest).
Qed.

Lemma split_without sep s : contains sep s = false -> split sep s = [s].
Proof.
  induction s as [|c rest IH]; simpl; [done|].
  intros [Hc Hrest]%orb_false_iff.
  by rewrite Hc, (IH Hrest).
Qed.

Lemma split_at_first sep a b :
  contains sep a = false -> split sep (a ++ String sep b) = a :: split sep b.
Proof.
  induction a as [|c rest IH]; simpl.
  - intros _. by rewrite Ascii.eqb_refl.
  - intros [Hc Hrest]%orb_false_iff.
    by rewrite Hc, (IH Hrest).
Qed.

Lemma contains_app c a b : contains c (a ++ b) = contains c a || contains c b.
Proof.
  induction a as [|c' rest IH]; simpl; [done|].
  by rewrite IH, orb_assoc.
Qed.

(** ** The sample implementation satisfies the interfaces *)

Module SampleFacts.
Import Sample.

Lemma letter_unletter n : (n < 16)%nat -> unletter (letter n) = n.
Proof.
  intros Hn. unfold unletter, letter.
  rewrite nat_ascii_embedding by lia. lia.
Qed.

Lemma half_bytes c :
  (nat_of_ascii c / 16 < 16)%nat /\ (nat_of_ascii c mod 16 < 16)%nat /\
  (nat_of_ascii c / 16 * 16 + nat_of_ascii c mod 16 = nat_of_ascii c)%nat.
Proof.
  pose proof (nat_ascii_bounded c) as Hb.
  pose proof (Nat.div_mod_eq (nat_of_ascii c) 16) as Hd.
  pose proof (Nat.mod_upper_bound (nat_of_ascii c) 16) as Hm.
  generalize dependent (nat_of_ascii c). intros n Hb Hd Hm.
  generalize dependent (n / 16)%nat. generalize dependent (n mod 16)%nat.
  intros. lia.
Qed.

Lemma unarmor_armor s : unarmor (armor s) = Some s.
Proof.
  induction s as [|c rest IH]; [done|].
  destruct (half_bytes c) as (Hhi & Hlo & Hc).
  cbn [armor unarmor]. rewrite IH. cbn [fmap option_fmap option_map].
  by rewrite !letter_unletter, Hc, ascii_nat_embedding.
Qed.

Lemma letter_eqb n c :
  (n < 16)%nat -> (nat_of_ascii c < 97)%nat -> Ascii.eqb (letter n) c = false.
Proof.
  intros Hn Hc. apply Ascii.eqb_neq. intros <-.
  unfold letter in Hc. rewrite nat_ascii_embedding in Hc; lia.
Qed.

Lemma armor_contains s c : (nat_of_ascii c < 97)%nat -> contains c (armor s) = false.
Proof.
  intros Hc. induction s as [|c' rest IH]; [done|].
  destruct (half_bytes c') as (Hhi & Hlo & _).
  cbn [armor contains]. by rewrite IH, !letter_eqb.
Qed.

Lemma uint_contains d c :
  (nat_of_ascii c < 48)%nat -> contains c (NilEmpty.string_of_uint d) = false.
Proof.
  intros Hc.
  induction d as [|d IH|d IH|d IH|d IH|d IH|d IH|d IH|d IH|d IH|d IH];
    cbn [NilEmpty.string_of_uint contains]; [done|..]; rewrite IH, orb_false_r;
    apply Ascii.eqb_neq; intros <-; vm_compute in Hc; lia.
Qed.

Lemma decimal_contains n c : (nat_of_ascii c < 48)%nat -> contains c (decimal n) = false.
Proof. apply uint_contains. Qed.

Lemma undecimal_decimal n : undecimal (decimal n) = Some n.
Proof.
  unfold undecimal, decimal.
  rewrite NilEmpty.usu. cbn [fmap option_fmap option_map].
  by rewrite DecimalN.Unsigned.of_to.
Qed.

Lemma prefix_app a b : String.prefix a (a ++ b) = true.
Proof.
  induction a as [|c rest IH]; simpl.
  - by destruct b.
  - destruct (ascii_dec c c); [apply IH|congruence].
Qed.

Lemma check_digest pw rounds salt : check pw (digest pw rounds salt) = true.
Proof. apply prefix_app. Qed.

Lemma decode_encode key c : decode key (encode key c) = Some c.
Proof.
  unfold decode, encode. cbn [join].
  rewrite !split_at_first, split_without
    by (apply armor_contains || apply decimal_contains; vm_compute; lia).
  rewrite String.eqb_refl, unarmor_armor. cbn [mbind option_bind].
  rewrite !undecimal_decimal. cbn [mbind option_bind].
  by destruct c.
Qed.

Lemma encode_nonempty key c : encode key c <> "".
Proof. unfold encode. cbn [join]. by destruct (armor key). Qed.

Lemma encode_no_space key c : contains " " (encode key c) = false.
Proof.
  unfold encode. cbn [join].
  repeat (rewrite contains_app; cbn [contains]).
  rewrite !armor_contains, !decimal_contains by (vm_compute; lia).
  reflexivity.
Qed.

End SampleFacts.


Definition sample_bcrypt : Bcrypt :=
  {| bcrypt_digest := Sample.digest;
     bcrypt_check := Sample.check;
     bcrypt_check_digest := SampleFacts.check_digest |}.

Definition sample_jws : Jwt.Jws :=
  {| Jwt.encode := Sample.encode;
     Jwt.decode := Sample.decode;
     Jwt.decode_encode := SampleFacts.decode_encode;
     Jwt.encode_nonempty := SampleFacts.encode_nonempty;
     Jwt.encode_no_space := SampleFacts.encode_no_space |}.

(** ** The handlers *)

Section Properties.

Context {bcrypt : Bcrypt} {jws : Jwt.Jws}.

(** Unfolds the monad so that a handler reduces on a given world. *)
Ltac run :=
  unfold mbind, M_bind, mret, M_ret, lift, throw, try_catch, record in *;
  cbn [fst snd users next_id trace] in *.

Lemma route_cons mw rest handler req w :
  route (mw :: rest) handler req w =
  match mw req w with
  | (Ok (Respond r), w') => (Ok r, w')
  | (Ok (Next req'), w') => route rest handler req' w'
  | (Throw e, w') => (Throw e, w')
  end.
Proof.
  cbn [route]. run.
  destruct (mw req w) as [[[r|req']|e] w']; reflexivity.
Qed.

Lemma truthy_str_Some t : t <> "" -> truthy_str (Some t) = true.
Proof. intros Ht. cbn. by apply negb_true_iff, String.eqb_neq. Qed.

Lemma jwt_verify_valid env key t user :
  JWT_SECRET env = Some key -> key <> "" ->
  Jwt.decode key t = Some user -> (now env < Jwt.exp user)%N ->
  jwt_verify env t (JWT_SECRET env) = inr user.
Proof.
  intros -> Hkey Hdec Hexp. unfold jwt_verify.
  apply String.eqb_neq in Hkey. rewrite Hkey, Hdec.
  by destruct (N.leb_spec (Jwt.exp user) (now env)); [lia|].
Qed.

Lemma jwt_verify_expired env key t user :
  JWT_SECRET env = Some key -> key <> "" ->
  Jwt.decode key t = Some user -> (Jwt.exp user <= now env)%N ->
  jwt_verify env t (JWT_SECRET env) = inl Jwt.TokenExpiredError.
Proof.
  intros -> Hkey Hdec Hexp. unfold jwt_verify.
  apply String.eqb_neq in Hkey. rewrite Hkey, Hdec.
  by destruct (N.leb_spec (Jwt.exp user) (now env)); [|lia].
Qed.

Lemma jwt_verify_bad_signature env key t :
  JWT_SECRET env = Some key -> key <> "" ->
  Jwt.decode key t = None ->
  jwt_verify env t (JWT_SECRET env) = inl Jwt.JsonWebTokenError.
Proof.
  intros -> Hkey Hdec. unfold jwt_verify.
  apply String.eqb_neq in Hkey. by rewrite Hkey, Hdec.
Qed.

Lemma authenticateJWT_absent env req w :
  truthy_str (bearer_token req) = false ->
  authenticateJWT env req w = (Ok (Respond (sendStatus 401)), w).
Proof.
  intros Hno. unfold authenticateJWT.
  destruct (bearer_token req) as [t|]; [|reflexivity].
  by rewrite Hno.
Qed.

Lemma authenticateJWT_rejected env req w t err :
  bearer_token req = Some t -> t <> "" ->
  jwt_verify env t (JWT_SECRET env) = inl err ->
  authenticateJWT env req w = (Ok (Respond (sendStatus 403)), w).
Proof.
  intros Htok Ht Hv. unfold authenticateJWT.
  by rewrite Htok, (truthy_str_Some _ Ht), Hv.
Qed.

Lemma authenticateJWT_accepted env req w t user :
  bearer_token req = Some t -> t <> "" ->
  jwt_verify env t (JWT_SECRET env) = inr user ->
  authenticateJWT env req w =
    (Ok (Next (mkRequest (req_body req) (headers_authorization req) (Some user))), w).
Proof.
  intros Htok Ht Hv. unfold authenticateJWT.
  by rewrite Htok, (truthy_str_Some _ Ht), Hv.
Qed.

Lemma bearer_token_of_header req t :
  headers_authorization req = Some ("Bearer " ++ t) ->
  contains " " t = false ->
  bearer_token req = Some t.
Proof.
  intros Hh Hsp. unfold bearer_token. rewrite Hh.
  change ("Bearer " ++ t) with ("Bearer" ++ String " " t).
  by rewrite split_at_first, split_without.
Qed.

(** C5: on a protected route the authentication middleware answers 401 when
    the Authorization header is absent or has no (or an empty) second word,
    answers 403 when the token in the header does not verify under the
    secret or has expired, and otherwise attaches the token's claims to the
    request and passes it on; a route that starts with the middleware runs
    nothing else unless it passed. *)
Theorem authenticateJWT_contract env req w :
  (headers_authorization req = None ->
     authenticateJWT env req w = (Ok (Respond (sendStatus 401)), w))
  /\ (forall header,
        headers_authorization req = Some header ->
        truthy_str (split " " header !! 1%nat) = false ->
        authenticateJWT env req w = (Ok (Respond (sendStatus 401)), w))
  /\ (forall header key t,
        headers_authorization req = Some header ->
        split " " header !! 1%nat = Some t -> t <> "" ->
        JWT_SECRET env = Some key -> key <> "" ->
        Jwt.decode key t = None ->
        authenticateJWT env req w = (Ok (Respond (sendStatus 403)), w))
  /\ (forall header key t user,
        headers_authorization req = Some header ->
        split " " header !! 1%nat = Some t -> t <> "" ->
        JWT_SECRET env = Some key -> key <> "" ->
        Jwt.decode key t = Some user -> (Jwt.exp user <= now env)%N ->
        authenticateJWT env req w = (Ok (Respond (sendStatus 403)), w))
  /\ (forall header key t user,
        headers_authorization req = Some header ->
        split " " header !! 1%nat = Some t -> t <> "" ->
        JWT_SECRET env = Some key -> key <> "" ->
        Jwt.decode key t = Some user -> (now env < Jwt.exp user)%N ->
        authenticateJWT env req w =
          (Ok (Next (mkRequest (req_body req) (Some header) (Some user))), w)
        /\ get_user env req w = (Ok (send 200 "Welcome User"), w))
  /\ (forall r,
        authenticateJWT env req w = (Ok (Respond r), w) ->
        get_user env req w = (Ok r, w) /\ get_admin env req w = (Ok r, w))
  /\ (forall req',
        authenticateJWT env req w = (Ok (Next req'), w) ->
        get_user env req w = (Ok (send 200 "Welcome User"), w)
        /\ get_admin env req w =
             route [authorizeAdmin] (fun _ => mret (send 200 "Welcome Admin")) req' w)
  /\ status (sendStatus 401) = 401%nat /\ status (sendStatus 403) = 403%nat.
Proof.
  assert (Htoken : forall header t,
            headers_authorization req = Some header ->
            split " " header !! 1%nat = Some t -> bearer_token req = Some t).
  { intros header t Hh Ht. unfold bearer_token. by rewrite Hh. }
  split_and!; try done.
  - intros Hh. apply authenticateJWT_absent. unfold bearer_token. by rewrite Hh.
  - intros header Hh Hno. apply authenticateJWT_absent. unfold bearer_token. by rewrite Hh.
  - intros header key t Hh Ht Hne Hs Hk Hdec.
    eapply authenticateJWT_rejected; eauto using jwt_verify_bad_signature.
  - intros header key t user Hh Ht Hne Hs Hk Hdec Hexp.
    eapply authenticateJWT_rejected; eauto using jwt_verify_expired.
  - intros header key t user Hh Ht Hne Hs Hk Hdec Hexp.
    assert (Hpass : authenticateJWT env req w =
              (Ok (Next (mkRequest (req_body req) (Some header) (Some user))), w)).
    { rewrite <- Hh. eapply authenticateJWT_accepted; eauto using jwt_verify_valid. }
    split; [done|].
    unfold get_user. by rewrite route_cons, Hpass.
  - intros r Hr. unfold get_user, get_admin.
    rewrite !(route_cons (authenticateJWT env)), Hr. split; reflexivity.
  - intros req' Hr. unfold get_user, get_admin.
    rewrite !(route_cons (authenticateJWT env)), Hr. split; reflexivity.
Qed.

(** C6: a request whose token verifies and carries a role other than
    ["admin"] gets 403 on the admin route and 200 on the user route. *)
Theorem non_admin_forbidden_on_admin_only env req w t user :
  bearer_token req = Some t -> t <> "" ->
  jwt_verify env t (JWT_SECRET env) = inr user ->
  Jwt.role user <> "admin" ->
  get_admin env req w = (Ok (sendStatus 403), w)
  /\ status (sendStatus 403) = 403%nat
  /\ get_user env req w = (Ok (send 200 "Welcome User"), w).
Proof.
  intros Htok Ht Hv Hrole. unfold get_admin, get_user.
  rewrite !route_cons, (authenticateJWT_accepted _ _ _ _ _ Htok Ht Hv).
  repeat split.
  rewrite route_cons. unfold authorizeAdmin; cbn [req_user].
  apply String.eqb_neq in Hrole. by rewrite Hrole.
Qed.

(** C9: logout answers 200 whatever the request holds and leaves the world
    as it was, so every token is judged after it exactly as before. *)
Theorem logout_is_stateless env req w :
  logout env req w = (Ok (sendStatus 200), w)
  /\ status (sendStatus 200) = 200%nat
  /\ (forall env' req',
        authenticateJWT env' req' (snd (logout env req w)) = authenticateJWT env' req' w).
Proof. by repeat split. Qed.

(** *** Registration and login, step by step *)

Lemma register_creates env req w e pw r rs :
  property (req_body req) "email" = Ok (VStr e) ->
  property (req_body req) "password" = Ok (VStr pw) ->
  property (req_body req) "role" = Ok r ->
  e <> "" -> pw <> "" ->
  or_else r (VStr "user") = VStr rs ->
  users w !! e = None ->
  let user := User.mk (next_id w) e (bcrypt_digest pw 10 (entropy env)) rs in
  register env req w =
    (Ok (json 201 (user_json user)),
     mkWorld (<[e := user]> (users w)) (N.succ (next_id w)) ((trace w ++ [EvHash]) ++ [EvCreate])).
Proof.
  intros He Hpw Hr Hne Hnp Hrs Hfresh user. unfold register.
  rewrite He, Hpw, Hr. run.
  apply String.eqb_neq in Hne, Hnp. cbn [truthy]. rewrite Hne, Hnp. cbn [negb orb].
  unfold bcrypt_hash, prisma_user_create. run.
  rewrite Hrs. cbn [users]. by rewrite Hfresh.
Qed.

(** X1: a registration without an email or without a password (absent or
    otherwise falsy) is answered 400 before anything is hashed or the store
    is called: the world, its trace included, is left as it was. *)
Lemma register_refused env req w email password role :
  property (req_body req) "email" = Ok email ->
  property (req_body req) "password" = Ok password ->
  property (req_body req) "role" = Ok role ->
  truthy email = false \/ truthy password = false ->
  register env req w = (Ok (send 400 "Email and password are required"), w).
Proof.
  intros He Hpw Hr Hmissing. unfold register.
  rewrite He, Hpw, Hr. run.
  by destruct Hmissing as [-> | ->]; rewrite ?orb_true_r.
Qed.

Lemma login_issues_token env req w e pw user key :
  property (req_body req) "email" = Ok (VStr e) ->
  property (req_body req) "password" = Ok (VStr pw) ->
  users w !! e = Some user ->
  bcrypt_check pw (User.password user) = true ->
  JWT_SECRET env = Some key -> key <> "" ->
  login env req w =
    (Ok (json 200 (VObj [("token",
           VStr (Jwt.encode key
                   (Jwt.mkClaims (User.id user) (User.role user)
                      (now env) (now env + expiresIn_1h)%N)))])),
     mkWorld (users w) (next_id w) ((trace w ++ [EvFindUnique]) ++ [EvCompare])).
Proof.
  intros He Hpw Hu Hck Hs Hk. unfold login.
  rewrite He, Hpw. unfold prisma_user_findUnique, bcrypt_compare, jwt_sign. run.
  rewrite Hu. run. rewrite Hck, Hs. cbn [negb].
  apply String.eqb_neq in Hk. by rewrite Hk.
Qed.

Lemma login_unknown_email env req w e password :
  property (req_body req) "email" = Ok (VStr e) ->
  property (req_body req) "password" = Ok password ->
  users w !! e = None ->
  login env req w =
    (Ok (send 401 "Invalid email or password"),
     mkWorld (users w) (next_id w) (trace w ++ [EvFindUnique])).
Proof.
  intros He Hpw Hu. unfold login.
  rewrite He, Hpw. unfold prisma_user_findUnique. run.
  by rewrite Hu.
Qed.

Lemma login_wrong_password env req w e pw user :
  property (req_body req) "email" = Ok (VStr e) ->
  property (req_body req) "password" = Ok (VStr pw) ->
  users w !! e = Some user ->
  bcrypt_check pw (User.password user) = false ->
  login env req w =
    (Ok (send 401 "Invalid email or password"),
     mkWorld (users w) (next_id w) ((trace w ++ [EvFindUnique]) ++ [EvCompare])).
Proof.
  intros He Hpw Hu Hck. unfold login.
  rewrite He, Hpw. unfold prisma_user_findUnique, bcrypt_compare. run.
  rewrite Hu. run. by rewrite Hck.
Qed.

Lemma login_ok_inv env req w resp w' :
  login env req w = (Ok resp, w') -> status resp = 200%nat ->
  exists e pw user key,
    property (req_body req) "email" = Ok (VStr e)
    /\ property (req_body req) "password" = Ok (VStr pw)
    /\ users w !! e = Some user
    /\ bcrypt_check pw (User.password user) = true
    /\ JWT_SECRET env = Some key /\ key <> "".
Proof.
  unfold login, prisma_user_findUnique, bcrypt_compare, jwt_sign. run.
  intros Hrun Hst.
  repeat (case_match; simplify_eq; try done).
  all: try (cbn in Hst; done).
  eexists _, _, _, _. repeat split; eauto.
  - by destruct (bcrypt_check _ _).
  - by apply String.eqb_neq.
Qed.

Lemma register_ok_inv env req w resp w' :
  register env req w = (Ok resp, w') -> status resp = 201%nat ->
  exists e pw r rs,
    property (req_body req) "email" = Ok (VStr e)
    /\ property (req_body req) "password" = Ok (VStr pw)
    /\ property (req_body req) "role" = Ok r
    /\ e <> "" /\ pw <> ""
    /\ or_else r (VStr "user") = VStr rs
    /\ users w !! e = None.
Proof.
  unfold register, bcrypt_hash, prisma_user_create. run.
  intros Hrun Hst.
  repeat (case_match; simplify_eq; try done).
  all: try (cbn in Hst; done).
  match goal with
  | Hm : negb _ || negb _ = false |- _ =>
      apply orb_false_iff in Hm as [He Hp];
      apply negb_false_iff in He, Hp; cbn [truthy] in He, Hp;
      apply negb_true_iff, String.eqb_neq in He;
      apply negb_true_iff, String.eqb_neq in Hp
  end.
  eexists _, _, _, _; repeat split; eauto.
Qed.

Lemma register_conflict env req w e pw r existing :
  property (req_body req) "email" = Ok (VStr e) ->
  property (req_body req) "password" = Ok (VStr pw) ->
  property (req_body req) "role" = Ok r ->
  e <> "" -> pw <> "" ->
  users w !! e = Some existing ->
  register env req w =
    (Ok (send 400 "User already exists"),
     mkWorld (users w) (next_id w) ((trace w ++ [EvHash]) ++ [EvCreate])).
Proof.
  intros He Hpw Hr Hne Hnp Htaken. unfold register.
  rewrite He, Hpw, Hr. run.
  apply String.eqb_neq in Hne, Hnp. cbn [truthy]. rewrite Hne, Hnp. cbn [negb orb].
  unfold bcrypt_hash, prisma_user_create. run.
  destruct (or_else r (VStr "user")); try reflexivity.
  cbn [users]. by rewrite Htaken.
Qed.

Lemma token_of_bearer_header req key c :
  headers_authorization req = Some ("Bearer " ++ Jwt.encode key c) ->
  bearer_token req = Some (Jwt.encode key c).
Proof. intros Hh. apply bearer_token_of_header; [done | apply Jwt.encode_no_space]. Qed.

(** *** The claims about registration and login *)

(** C1 (as amended): a registration answered 201 carries the created row
    as it is stored, the [password] column included, and that column holds
    the bcrypt hash computed from the submitted password. *)
Theorem register_response_is_stored_row env req w resp w' :
  register env req w = (Ok resp, w') -> status resp = 201%nat ->
  exists user pw,
    resp = json 201 (user_json user)
    /\ users w' !! User.email user = Some user
    /\ property (req_body req) "password" = Ok (VStr pw)
    /\ User.password user = bcrypt_digest pw 10 (entropy env)
    /\ property (user_json user) "password" = Ok (VStr (User.password user)).
Proof.
  intros Hrun Hst.
  destruct (register_ok_inv _ _ _ _ _ Hrun Hst)
    as (e & pw & r & rs & He & Hpw & Hr & Hne & Hnp & Hrs & Hfresh).
  rewrite (register_creates _ _ _ _ _ _ _ He Hpw Hr Hne Hnp Hrs Hfresh) in Hrun.
  injection Hrun as <- <-.
  eexists _, pw. repeat split; [|done].
  cbn [users User.email]. apply lookup_insert_eq.
Qed.

(** C3: registering a fresh email with a valid pair answers 201, and a
    login with the same pair right after answers 200 with a token. *)
Theorem register_then_login env env' req req' w e pw r rs key :
  property (req_body req) "email" = Ok (VStr e) ->
  property (req_body req) "password" = Ok (VStr pw) ->
  property (req_body req) "role" = Ok r ->
  or_else r (VStr "user") = VStr rs ->
  e <> "" -> pw <> "" ->
  users w !! e = None ->
  property (req_body req') "email" = Ok (VStr e) ->
  property (req_body req') "password" = Ok (VStr pw) ->
  JWT_SECRET env' = Some key -> key <> "" ->
  exists user w1 token w2,
    register env req w = (Ok (json 201 (user_json user)), w1)
    /\ login env' req' w1 = (Ok (json 200 (VObj [("token", VStr token)])), w2)
    /\ User.email user = e
    /\ jwt_verify env' token (JWT_SECRET env') =
         inr (Jwt.mkClaims (User.id user) (User.role user) (now env') (now env' + 3600)%N).
Proof.
  intros He Hpw Hr Hrs Hne Hnp Hfresh He' Hpw' Hs Hk.
  eexists _, _, _, _.
  split; [apply (register_creates _ _ _ _ _ _ _ He Hpw Hr Hne Hnp Hrs Hfresh)|].
  split; [|split; [reflexivity|]].
  - eapply login_issues_token; eauto.
    + cbn [users]. apply lookup_insert_eq.
    + apply bcrypt_check_digest.
  - eapply jwt_verify_valid; eauto using Jwt.decode_encode.
    cbn [Jwt.exp]. unfold expiresIn_1h. lia.
Qed.

(** C4: a login for an email nobody registered and a login whose password
    does not verify against the stored hash get the same response. *)
Theorem login_failures_indistinguishable env1 env2 req1 req2 w1 w2 e1 e2 password1 pw2 user :
  property (req_body req1) "email" = Ok (VStr e1) ->
  property (req_body req1) "password" = Ok password1 ->
  users w1 !! e1 = None ->
  property (req_body req2) "email" = Ok (VStr e2) ->
  property (req_body req2) "password" = Ok (VStr pw2) ->
  users w2 !! e2 = Some user ->
  bcrypt_check pw2 (User.password user) = false ->
  fst (login env1 req1 w1) = Ok (send 401 "Invalid email or password")
  /\ fst (login env2 req2 w2) = fst (login env1 req1 w1).
Proof.
  intros He1 Hp1 Hu1 He2 Hp2 Hu2 Hck.
  rewrite (login_unknown_email _ _ _ _ _ He1 Hp1 Hu1).
  by rewrite (login_wrong_password _ _ _ _ _ _ He2 Hp2 Hu2 Hck).
Qed.

(** C7 (as amended): registering an email that is taken, with any
    non-empty password string, answers 400 "User already exists"; the
    response differs from the one for missing fields and the table is left
    as it was. *)
Theorem register_duplicate_email env req w e pw r existing :
  property (req_body req) "email" = Ok (VStr e) ->
  property (req_body req) "password" = Ok (VStr pw) ->
  property (req_body req) "role" = Ok r ->
  e <> "" -> pw <> "" ->
  users w !! e = Some existing ->
  fst (register env req w) = Ok (send 400 "User already exists")
  /\ send 400 "User already exists" <> send 400 "Email and password are required"
  /\ users (snd (register env req w)) = users w
  /\ users (snd (register env req w)) !! e = Some existing.
Proof.
  intros He Hpw Hr Hne Hnp Htaken.
  rewrite (register_conflict _ _ _ _ _ _ _ He Hpw Hr Hne Hnp Htaken).
  by repeat split.
Qed.

(** C8: a token a login issued expires one hour after it was issued; the
    authentication middleware passes a request bearing it at any time
    before that and answers 403 from then on, in whatever world it runs. *)
Theorem token_accepted_until_expiry env req w resp w' :
  login env req w = (Ok resp, w') -> status resp = 200%nat ->
  exists token user,
    resp = json 200 (VObj [("token", VStr token)])
    /\ Jwt.iat user = now env
    /\ Jwt.exp user = (now env + 3600)%N
    /\ forall env' req' w'',
         JWT_SECRET env' = JWT_SECRET env ->
         headers_authorization req' = Some ("Bearer " ++ token) ->
         authenticateJWT env' req' w'' =
           (Ok (if (now env' <? now env + 3600)%N
                then Next (mkRequest (req_body req') (headers_authorization req') (Some user))
                else Respond (sendStatus 403)),
            w'').
Proof.
  intros Hrun Hst.
  destruct (login_ok_inv _ _ _ _ _ Hrun Hst)
    as (e & pw & u & key & He & Hpw & Hu & Hck & Hs & Hk).
  rewrite (login_issues_token _ _ _ _ _ _ _ He Hpw Hu Hck Hs Hk) in Hrun.
  injection Hrun as <- <-.
  set (c := Jwt.mkClaims (User.id u) (User.role u) (now env) (now env + expiresIn_1h)%N).
  exists (Jwt.encode key c), c.
  split; [reflexivity|]. split; [reflexivity|]. split; [reflexivity|].
  intros env' req' w'' Hs' Hh. rewrite Hs in Hs'.
  pose proof (token_of_bearer_header _ _ _ Hh) as Htok.
  pose proof (Jwt.encode_nonempty key c) as Hne.
  change (now env + 3600)%N with (now env + expiresIn_1h)%N.
  destruct (N.ltb_spec (now env') (now env + expiresIn_1h)%N) as [Hlt|Hge].
  - eapply authenticateJWT_accepted; eauto.
    eapply jwt_verify_valid; eauto using Jwt.decode_encode.
  - eapply authenticateJWT_rejected; eauto.
    eapply jwt_verify_expired; eauto using Jwt.decode_encode.
Qed.

(** C10: a registration that names a non-empty role string stores the row
    with that role; with ["admin"], the token of a login that follows opens
    the admin route. *)
Theorem register_with_chosen_role env req w e pw rs :
  property (req_body req) "email" = Ok (VStr e) ->
  property (req_body req) "password" = Ok (VStr pw) ->
  property (req_body req) "role" = Ok (VStr rs) ->
  e <> "" -> pw <> "" -> rs <> "" ->
  users w !! e = None ->
  exists user w1,
    register env req w = (Ok (json 201 (user_json user)), w1)
    /\ users w1 !! e = Some user
    /\ User.role user = rs
    /\ (rs = "admin" ->
        forall env' req' key env'' req'',
          property (req_body req') "email" = Ok (VStr e) ->
          property (req_body req') "password" = Ok (VStr pw) ->
          JWT_SECRET env' = Some key -> key <> "" ->
          JWT_SECRET env'' = Some key ->
          (now env'' < now env' + 3600)%N ->
          exists token w2,
            login env' req' w1 = (Ok (json 200 (VObj [("token", VStr token)])), w2)
            /\ (headers_authorization req'' = Some ("Bearer " ++ token) ->
                get_admin env'' req'' w2 = (Ok (send 200 "Welcome Admin"), w2))).
Proof.
  intros He Hpw Hr Hne Hnp Hnr Hfresh.
  assert (Hrs : or_else (VStr rs) (VStr "user") = VStr rs).
  { unfold or_else. cbn [truthy]. apply String.eqb_neq in Hnr. by rewrite Hnr. }
  eexists _, _.
  split; [apply (register_creates _ _ _ _ _ _ _ He Hpw Hr Hne Hnp Hrs Hfresh)|].
  split; [cbn [users]; apply lookup_insert_eq|].
  split; [reflexivity|].
  intros -> env' req' key env'' req'' He' Hpw' Hs' Hk Hs'' Hnow.
  eexists _, _. split.
  - eapply login_issues_token; eauto.
    + cbn [users]. apply lookup_insert_eq.
    + apply bcrypt_check_digest.
  - intros Hh. unfold get_admin.
    rewrite route_cons.
    erewrite authenticateJWT_accepted;
      [ | by apply token_of_bearer_header | apply Jwt.encode_nonempty
        | eapply jwt_verify_valid; eauto using Jwt.decode_encode ].
    by rewrite route_cons.
Qed.

(** *** Rows are never updated or deleted *)

Lemma authenticateJWT_world env req w : snd (authenticateJWT env req w) = w.
Proof. unfold authenticateJWT. by repeat case_match. Qed.

Lemma authorizeAdmin_world req w : snd (authorizeAdmin req w) = w.
Proof. unfold authorizeAdmin. by repeat case_match. Qed.

Lemma get_user_world env req w : snd (get_user env req w) = w.
Proof.
  unfold get_user. rewrite route_cons.
  pose proof (authenticateJWT_world env req w) as Hw.
  by destruct (authenticateJWT env req w) as [[[r|req']|err] w']; cbn [snd] in Hw; subst.
Qed.

Lemma get_admin_world env req w : snd (get_admin env req w) = w.
Proof.
  unfold get_admin. rewrite route_cons.
  pose proof (authenticateJWT_world env req w) as Hw.
  destruct (authenticateJWT env req w) as [[[r|req']|err] w']; cbn [snd] in Hw; subst;
    [done | | done].
  rewrite route_cons.
  pose proof (authorizeAdmin_world req' w) as Hw.
  by destruct (authorizeAdmin req' w) as [[[r|req'']|err] w']; cbn [snd] in Hw; subst.
Qed.

Lemma serve_keeps_rows env ep req w e row :
  users w !! e = Some row -> users (snd (serve env ep req w)) !! e = Some row.
Proof.
  intros Hrow. destruct ep; cbn [serve].
  - unfold register, bcrypt_hash, prisma_user_create. run.
    repeat (case_match; simplify_eq; cbn [fst snd users]; try done).
    rewrite lookup_insert_ne; [done|]. by intros ->; cbn [users] in *; simplify_eq.
  - unfold login, prisma_user_findUnique, bcrypt_compare, jwt_sign. run.
    repeat (case_match; simplify_eq; cbn [fst snd users]; try done).
  - done.
  - by rewrite get_admin_world.
  - by rewrite get_user_world.
Qed.

Lemma serve_all_keeps_rows traffic w e row :
  users w !! e = Some row -> users (serve_all traffic w) !! e = Some row.
Proof.
  revert w. induction traffic as [|[[env ep] req] rest IH]; intros w Hrow; [done|].
  cbn [serve_all]. by apply IH, serve_keeps_rows.
Qed.

(** X2: a registered user can log in after any run of requests in
    between, since no endpoint updates or deletes a row. *)
Theorem login_after_any_traffic env env' req req' traffic w e pw r rs key :
  property (req_body req) "email" = Ok (VStr e) ->
  property (req_body req) "password" = Ok (VStr pw) ->
  property (req_body req) "role" = Ok r ->
  or_else r (VStr "user") = VStr rs ->
  e <> "" -> pw <> "" ->
  users w !! e = None ->
  property (req_body req') "email" = Ok (VStr e) ->
  property (req_body req') "password" = Ok (VStr pw) ->
  JWT_SECRET env' = Some key -> key <> "" ->
  exists token,
    fst (login env' req' (serve_all ((env, PostRegister, req) :: traffic) w)) =
      Ok (json 200 (VObj [("token", VStr token)])).
Proof.
  intros He Hpw Hr Hrs Hne Hnp Hfresh He' Hpw' Hs Hk.
  cbn [serve_all serve].
  rewrite (register_creates _ _ _ _ _ _ _ He Hpw Hr Hne Hnp Hrs Hfresh). cbn [snd].
  eexists. erewrite login_issues_token; eauto.
  - apply serve_all_keeps_rows. cbn [users]. apply lookup_insert_eq.
  - apply bcrypt_check_digest.
Qed.

(** *** What the handlers do beyond the claims *)

Lemma register_cases env req w :
  (users (snd (register env req w)) = users w
   /\ next_id (snd (register env req w)) = next_id w
   /\ forall resp, fst (register env req w) = Ok resp -> status resp = 400%nat)
  \/ (exists e pw r rs,
        property (req_body req) "email" = Ok (VStr e)
        /\ property (req_body req) "password" = Ok (VStr pw)
        /\ property (req_body req) "role" = Ok r
        /\ e <> "" /\ pw <> ""
        /\ or_else r (VStr "user") = VStr rs
        /\ users w !! e = None).
Proof.
  destruct (fst (register env req w)) as [resp|err] eqn:Hfst.
  - destruct (decide (status resp = 201%nat)) as [H201|Hnot].
    + right. apply (register_ok_inv env req w resp (snd (register env req w))); [|done].
      rewrite <- Hfst. by destruct (register env req w).
    + left. revert Hfst Hnot.
      unfold register, bcrypt_hash, prisma_user_create. run.
      repeat (case_match; simplify_eq; cbn [fst snd users next_id status json send]; try done).
      all: intros; simplify_eq; try done.
      all: split_and!; try done; by intros ? [= <-].
  - left. revert Hfst.
    unfold register, bcrypt_hash, prisma_user_create. run.
    repeat (case_match; simplify_eq; cbn [fst snd users next_id]; try done).
Qed.

Lemma login_world env req w :
  users (snd (login env req w)) = users w /\ next_id (snd (login env req w)) = next_id w.
Proof.
  unfold login, prisma_user_findUnique, bcrypt_compare, jwt_sign. run.
  by repeat (case_match; simplify_eq; cbn [fst snd users next_id]; try done).
Qed.

Lemma or_else_user_nonempty r rs : or_else r (VStr "user") = VStr rs -> rs <> "".
Proof.
  unfold or_else. destruct (truthy r) eqn:Hr.
  - intros ->. cbn [truthy] in Hr. by apply negb_true_iff, String.eqb_neq in Hr.
  - by intros [= <-].
Qed.

Lemma get_user_cases env req w :
  get_user env req w =
    (Ok match bearer_token req with
        | Some t =>
            if String.eqb t "" then sendStatus 401
            else match jwt_verify env t (JWT_SECRET env) with
                 | inl _ => sendStatus 403
                 | inr _ => send 200 "Welcome User"
                 end
        | None => sendStatus 401
        end, w).
Proof.
  unfold get_user. rewrite route_cons. unfold authenticateJWT.
  destruct (bearer_token req) as [t|]; [|done]. cbn [truthy_str].
  destruct (String.eqb t ""); [done|]. cbn [negb].
  by destruct (jwt_verify env t (JWT_SECRET env)).
Qed.

Lemma get_admin_cases env req w :
  get_admin env req w =
    (Ok match bearer_token req with
        | Some t =>
            if String.eqb t "" then sendStatus 401
            else match jwt_verify env t (JWT_SECRET env) with
                 | inl _ => sendStatus 403
                 | inr user =>
                     if String.eqb (Jwt.role user) "admin" then send 200 "Welcome Admin"
                     else sendStatus 403
                 end
        | None => sendStatus 401
        end, w).
Proof.
  unfold get_admin. rewrite route_cons. unfold authenticateJWT.
  destruct (bearer_token req) as [t|]; [|done]. cbn [truthy_str].
  destruct (String.eqb t ""); [done|]. cbn [negb].
  destruct (jwt_verify env t (JWT_SECRET env)) as [err|user]; [done|].
  run. rewrite route_cons. unfold authorizeAdmin. cbn [req_user].
  by destruct (String.eqb (Jwt.role user) "admin").
Qed.

Lemma serve_preserves_rows_ok env ep req w :
  rows_ok w -> rows_ok (snd (serve env ep req w)).
Proof.
  intros Hok. destruct ep; cbn [serve].
  - destruct (register_cases env req w)
      as [(Hu & _ & _) | (e & pw & r & rs & He & Hpw & Hr & Hne & Hnp & Hrs & Hfresh)].
    + intros e row. rewrite Hu. apply Hok.
    + rewrite (register_creates _ _ _ _ _ _ _ He Hpw Hr Hne Hnp Hrs Hfresh).
      intros e' row. cbn [snd users].
      intros [[<- <-] | [_ Hold]]%lookup_insert_Some; [|by apply Hok].
      split_and!; try done; [by eapply or_else_user_nonempty | by eexists _, _].
  - intros e row. destruct (login_world env req w) as [-> _]. apply Hok.
  - done.
  - by rewrite get_admin_world.
  - by rewrite get_user_world.
Qed.

(** X4: whatever requests the server has handled since the table was
    empty, every row is filed under its own email, has a non-empty email
    and a non-empty role, and holds a cost-10 bcrypt hash of a non-empty
    password. *)
Theorem stored_rows_are_well_formed traffic n log :
  rows_ok (serve_all traffic (mkWorld ∅ n log)).
Proof.
  assert (Hgen : forall w, rows_ok w -> rows_ok (serve_all traffic w)).
  { induction traffic as [|[[env ep] req] rest IH]; intros w Hok; [done|].
    cbn [serve_all]. by apply IH, serve_preserves_rows_ok. }
  apply Hgen. intros e row Hrow. cbn [users] in Hrow. by rewrite lookup_empty in Hrow.
Qed.


Lemma protected_routes_by_token env req w :
  exists ru ra,
    get_user env req w = (Ok ru, w)
    /\ get_admin env req w = (Ok ra, w)
    /\ (status ru = 200%nat <->
        exists t user,
          bearer_token req = Some t /\ t <> ""
          /\ jwt_verify env t (JWT_SECRET env) = inr user)
    /\ (status ra = 200%nat <->
        exists t user,
          bearer_token req = Some t /\ t <> ""
          /\ jwt_verify env t (JWT_SECRET env) = inr user
          /\ Jwt.role user = "admin").
Proof.
  eexists _, _. split; [apply get_user_cases|]. split; [apply get_admin_cases|].
  assert (H401 : status (sendStatus 401) <> 200%nat) by (cbn; lia).
  assert (H403 : status (sendStatus 403) <> 200%nat) by (cbn; lia).
  destruct (bearer_token req) as [t|].
  - destruct (String.eqb_spec t "") as [->|Ht].
    + split; (split; [done | intros (? & ? & [= <-] & Hne & ?); by destruct Hne]).
    + destruct (jwt_verify env t (JWT_SECRET env)) as [err|user] eqn:Hv.
      * split; (split; [done|]).
        -- intros (? & ? & [= <-] & _ & Hv'). rewrite Hv in Hv'. discriminate.
        -- intros (? & ? & [= <-] & _ & Hv' & _). rewrite Hv in Hv'. discriminate.
      * split; [split; [by eexists _, _ | done]|].
        destruct (String.eqb_spec (Jwt.role user) "admin") as [Hr|Hr].
        -- split; [by eexists _, _ | done].
        -- split; [done|]. intros (t' & user' & [= <-] & _ & Hv' & Hr').
           rewrite Hv in Hv'. injection Hv' as <-. by destruct Hr.
  - split; (split; [done | by intros (? & ? & [=] & ?)]).
Qed.

Lemma bearer_token_is_second_word req t :
  bearer_token req = Some t <->
  exists header, headers_authorization req = Some header
                 /\ split " " header !! 1%nat = Some t.
Proof.
  unfold bearer_token. destruct (headers_authorization req) as [header|].
  - split; [by exists header | by intros (? & [= <-] & ?)].
  - split; [done | by intros (? & [=] & ?)].
Qed.

(** X6: the protected routes always answer, and never throw; GET /user
    answers 200 exactly when the request has an Authorization header whose
    second space-separated word is a non-empty token that verifies, and
    GET /admin exactly when, in addition, its role claim is ["admin"]. *)
Theorem protected_routes_answer env req w :
  exists ru ra,
    get_user env req w = (Ok ru, w)
    /\ get_admin env req w = (Ok ra, w)
    /\ (status ru = 200%nat <->
        exists header t user,
          headers_authorization req = Some header
          /\ split " " header !! 1%nat = Some t /\ t <> ""
          /\ jwt_verify env t (JWT_SECRET env) = inr user)
    /\ (status ra = 200%nat <->
        exists header t user,
          headers_authorization req = Some header
          /\ split " " header !! 1%nat = Some t /\ t <> ""
          /\ jwt_verify env t (JWT_SECRET env) = inr user
          /\ Jwt.role user = "admin").
Proof.
  destruct (protected_routes_by_token env req w) as (ru & ra & Hu & Ha & Hiu & Hia).
  exists ru, ra. split; [done|]. split; [done|].
  rewrite Hiu, Hia. split; split.
  - intros (t & user & [header [Hh Ht]]%bearer_token_is_second_word & Hne & Hv).
    by exists header, t, user.
  - intros (header & t & user & Hh & Ht & Hne & Hv).
    exists t, user. split; [|done]. apply bearer_token_is_second_word. by exists header.
  - intros (t & user & [header [Hh Ht]]%bearer_token_is_second_word & Hne & Hv & Hr).
    by exists header, t, user.
  - intros (header & t & user & Hh & Ht & Hne & Hv & Hr).
    exists t, user. split; [|done]. apply bearer_token_is_second_word. by exists header.
Qed.

(** X7: whenever the handler of an endpoint sends a response to a
    request that reached it, the status is one of: 201 or 400 for
    /register, 200 or 401 for /login, 200 for /logout, and 200, 401 or 403
    for each protected route. *)
Theorem serve_statuses env ep req w :
  match fst (serve env ep req w) with
  | Ok resp => status resp ∈ statuses ep
  | Throw _ => True
  end.
Proof.
  destruct ep; cbn [serve statuses].
  - destruct (register_cases env req w)
      as [(_ & _ & H400) | (e & pw & r & rs & He & Hpw & Hr & Hne & Hnp & Hrs & Hfresh)].
    + destruct (fst (register env req w)) as [resp|]; [|done].
      rewrite (H400 resp eq_refl). set_solver.
    + rewrite (register_creates _ _ _ _ _ _ _ He Hpw Hr Hne Hnp Hrs Hfresh).
      cbn [fst status json]. set_solver.
  - unfold login, prisma_user_findUnique, bcrypt_compare, jwt_sign. run.
    repeat (case_match; simplify_eq; cbn [fst snd status json send]; try done);
      set_solver.
  - cbn. set_solver.
  - rewrite get_admin_cases. cbn [fst].
    repeat case_match; cbn; set_solver.
  - rewrite get_user_cases. cbn [fst].
    repeat case_match; cbn; set_solver.
Qed.

(** X3: the role stored at registration (the one supplied, or ["user"]
    when none or a falsy one is) decides what the token of a later login
    opens: GET /user answers 200, and GET /admin answers 200 when the role
    is exactly ["admin"] and 403 otherwise. *)
Theorem role_decides_admin_access env env' env'' req req' req'' w e pw r rs key :
  property (req_body req) "email" = Ok (VStr e) ->
  property (req_body req) "password" = Ok (VStr pw) ->
  property (req_body req) "role" = Ok r ->
  or_else r (VStr "user") = VStr rs ->
  e <> "" -> pw <> "" ->
  users w !! e = None ->
  property (req_body req') "email" = Ok (VStr e) ->
  property (req_body req') "password" = Ok (VStr pw) ->
  JWT_SECRET env' = Some key -> key <> "" ->
  JWT_SECRET env'' = Some key ->
  (now env'' < now env' + 3600)%N ->
  exists row w1 token w2,
    register env req w = (Ok (json 201 (user_json row)), w1)
    /\ User.role row = rs
    /\ (truthy r = false -> rs = "user")
    /\ login env' req' w1 = (Ok (json 200 (VObj [("token", VStr token)])), w2)
    /\ (headers_authorization req'' = Some ("Bearer " ++ token) ->
        get_user env'' req'' w2 = (Ok (send 200 "Welcome User"), w2)
        /\ get_admin env'' req'' w2 =
             (Ok (if String.eqb rs "admin" then send 200 "Welcome Admin" else sendStatus 403),
              w2)).
Proof.
  intros He Hpw Hr Hrs Hne Hnp Hfresh He' Hpw' Hs' Hk Hs'' Hnow.
  eexists _, _, _, _.
  split; [apply (register_creates _ _ _ _ _ _ _ He Hpw Hr Hne Hnp Hrs Hfresh)|].
  split; [reflexivity|].
  split; [intros Hfalsy; unfold or_else in Hrs; rewrite Hfalsy in Hrs; by injection Hrs|].
  split.
  - eapply login_issues_token; eauto.
    + cbn [users]. apply lookup_insert_eq.
    + apply bcrypt_check_digest.
  - intros Hh. cbn [User.id User.role] in Hh.
    set (c := Jwt.mkClaims (next_id w) rs (now env') (now env' + expiresIn_1h)) in *.
    pose proof (token_of_bearer_header _ _ _ Hh) as Htok.
    assert (Hv : jwt_verify env'' (Jwt.encode key c) (JWT_SECRET env'') = inr c).
    { eapply jwt_verify_valid; eauto using Jwt.decode_encode. }
    pose proof (Jwt.encode_nonempty key c) as Hnonempty.
    apply String.eqb_neq in Hnonempty.
    rewrite get_user_cases, get_admin_cases, Htok. cbv beta iota.
    by rewrite Hnonempty, Hv.
Qed.

(** X8: the scheme word of the Authorization header is never looked at,
    and neither is anything after the token: the token is the second
    space-separated word, so ["Basic t"] or ["x t y"] is served exactly as
    ["Bearer t"] is. *)
Theorem authorization_scheme_is_ignored env scheme t trailing body user w :
  contains " " scheme = false ->
  contains " " t = false ->
  let bearer := mkRequest body (Some ("Bearer " ++ t)) user in
  let other := mkRequest body (Some (scheme ++ " " ++ t)) user in
  let longer := mkRequest body (Some (scheme ++ " " ++ t ++ " " ++ trailing)) user in
  bearer_token other = Some t
  /\ bearer_token longer = Some t
  /\ get_user env other w = get_user env bearer w
  /\ get_user env longer w = get_user env bearer w
  /\ get_admin env other w = get_admin env bearer w
  /\ get_admin env longer w = get_admin env bearer w.
Proof.
  intros Hscheme Ht bearer other longer.
  assert (Hb : bearer_token bearer = Some t) by by apply bearer_token_of_header.
  assert (Ho : bearer_token other = Some t).
  { unfold bearer_token, other. cbn [headers_authorization].
    change (scheme ++ " " ++ t) with (scheme ++ String " " t).
    by rewrite split_at_first, split_without. }
  assert (Hl : bearer_token longer = Some t).
  { unfold bearer_token, longer. cbn [headers_authorization].
    change (scheme ++ " " ++ t ++ " " ++ trailing)
      with (scheme ++ String " " (t ++ String " " trailing)).
    by rewrite !split_at_first. }
  by rewrite !get_user_cases, !get_admin_cases, Hb, Ho, Hl.
Qed.

(** X9: a login for a string email always queries the store first, and
    calls bcrypt.compare exactly when a row was found: for an unknown
    email no hash is ever compared, whatever password came along. *)
Theorem login_compares_only_for_known_email env req w e password :
  property (req_body req) "email" = Ok (VStr e) ->
  property (req_body req) "password" = Ok password ->
  trace (snd (login env req w)) =
    (trace w ++ match users w !! e with
                | Some _ => [EvFindUnique; EvCompare]
                | None => [EvFindUnique]
                end)%list.
Proof.
  intros He Hpw. unfold login, prisma_user_findUnique, bcrypt_compare, jwt_sign.
  rewrite He, Hpw. run.
  destruct (users w !! e) as [row|]; run; [|done].
  rewrite <- app_assoc.
  by repeat (case_match; simplify_eq; cbn [fst snd trace]; try done).
Qed.

(** X10: a registration with a truthy email whose password is truthy but
    not a string (a non-zero number, [true], an object) passes the presence
    check and makes bcrypt.hash reject outside the [try]: the handler sends
    no response, and nothing reaches the store. *)
Theorem register_unhandled_on_non_string_password env req w email password role :
  property (req_body req) "email" = Ok email ->
  property (req_body req) "password" = Ok password ->
  property (req_body req) "role" = Ok role ->
  truthy email = true -> truthy password = true ->
  (forall pw, password <> VStr pw) ->
  register env req w =
    (Throw BcryptIllegalArguments, mkWorld (users w) (next_id w) (trace w ++ [EvHash])).
Proof.
  intros He Hpw Hr Hte Htp Hns. unfold register, bcrypt_hash.
  rewrite He, Hpw, Hr. run. rewrite Hte, Htp. cbn [negb orb].
  destruct password; try done. by destruct (Hns s).
Qed.

(** X11: the [catch] answers "User already exists" for every failure of
    prisma.user.create: a request that passes the presence check with a
    non-empty password string, but whose truthy email is not a string or
    whose role is truthy and not a string, gets that answer although no row
    has its email, and the table is left as it was. *)
Theorem register_reports_any_create_failure_as_conflict env req w email pw role :
  property (req_body req) "email" = Ok email ->
  property (req_body req) "password" = Ok (VStr pw) ->
  property (req_body req) "role" = Ok role ->
  truthy email = true -> pw <> "" ->
  (forall e, email <> VStr e) \/ (forall r, or_else role (VStr "user") <> VStr r) ->
  register env req w =
    (Ok (send 400 "User already exists"),
     mkWorld (users w) (next_id w) ((trace w ++ [EvHash]) ++ [EvCreate])).
Proof.
  intros He Hpw Hr Hte Hnp Hbad. unfold register, bcrypt_hash, prisma_user_create.
  rewrite He, Hpw, Hr. run.
  apply String.eqb_neq in Hnp. cbn [truthy]. rewrite Hte, Hnp. cbn [negb orb].
  destruct Hbad as [Hbad|Hbad].
  - destruct email; try done. by destruct (Hbad s).
  - destruct (or_else role (VStr "user")) eqn:Hrole; try by destruct email.
    by destruct (Hbad s).
Qed.

(** X12: with JWT_SECRET unset or empty no login can succeed (valid
    credentials make jwt.sign throw after the store and bcrypt were
    consulted) and no protected route ever answers 200. *)
Theorem without_secret_nothing_is_accepted env :
  JWT_SECRET env = None \/ JWT_SECRET env = Some "" ->
  (forall req w e pw row,
     property (req_body req) "email" = Ok (VStr e) ->
     property (req_body req) "password" = Ok (VStr pw) ->
     users w !! e = Some row ->
     bcrypt_check pw (User.password row) = true ->
     login env req w =
       (Throw JwtSecretMissing,
        mkWorld (users w) (next_id w) ((trace w ++ [EvFindUnique]) ++ [EvCompare])))
  /\ (forall req w resp,
        fst (get_user env req w) = Ok resp \/ fst (get_admin env req w) = Ok resp ->
        status resp = 401%nat \/ status resp = 403%nat).
Proof.
  intros Hsecret. split.
  - intros req w e pw row He Hpw Hrow Hck.
    unfold login, prisma_user_findUnique, bcrypt_compare, jwt_sign.
    rewrite He, Hpw. run. rewrite Hrow. run. rewrite Hck. cbn [negb].
    by destruct Hsecret as [-> | ->].
  - intros req w resp.
    assert (Hv : forall t, jwt_verify env t (JWT_SECRET env) = inl Jwt.JsonWebTokenError).
    { intros t. unfold jwt_verify. by destruct Hsecret as [-> | ->]. }
    rewrite get_user_cases, get_admin_cases. cbn [fst].
    destruct (bearer_token req) as [t|]; [|intros [[= <-] | [= <-]]; by left].
    rewrite Hv. destruct (String.eqb t "");
      intros [[= <-] | [= <-]]; (by left) || (by right).
Qed.

(** X13: an email can be registered once.  After a registration answered
    201, and whatever requests were served since, another registration
    with that email and any password string is answered 400, and the row
    of the first registration, its password hash included, is still the
    one stored. *)
Theorem email_cannot_be_registered_twice env env' req req' traffic w e pw pw' r r' rs :
  property (req_body req) "email" = Ok (VStr e) ->
  property (req_body req) "password" = Ok (VStr pw) ->
  property (req_body req) "role" = Ok r ->
  or_else r (VStr "user") = VStr rs ->
  e <> "" -> pw <> "" ->
  users w !! e = None ->
  property (req_body req') "email" = Ok (VStr e) ->
  property (req_body req') "password" = Ok (VStr pw') ->
  property (req_body req') "role" = Ok r' ->
  pw' <> "" ->
  let row := User.mk (next_id w) e (bcrypt_digest pw 10 (entropy env)) rs in
  let w1 := serve_all ((env, PostRegister, req) :: traffic) w in
  fst (register env' req' w1) = Ok (send 400 "User already exists")
  /\ users (snd (register env' req' w1)) !! e = Some row.
Proof.
  intros He Hpw Hr Hrs Hne Hnp Hfresh He' Hpw' Hr' Hnp' row w1.
  assert (Hrow : users w1 !! e = Some row).
  { unfold w1. cbn [serve_all serve].
    rewrite (register_creates _ _ _ _ _ _ _ He Hpw Hr Hne Hnp Hrs Hfresh). cbn [snd].
    apply serve_all_keeps_rows. cbn [users]. apply lookup_insert_eq. }
  by rewrite (register_conflict _ _ _ _ _ _ _ He' Hpw' Hr' Hne Hnp' Hrow).
Qed.
End Properties.

(** ** The server run on concrete requests *)

Module Run.
Import Sample.

#[local] Existing Instance sample_bcrypt.
#[local] Existing Instance sample_jws.

(** The scenario of the specification: register, log in, use the token on
    both routes, and call a route with no header. *)
Example scenario :
  exists w1 w2,
    register env0 (post alice) empty = (Ok (json 201 (user_json alice_row)), w1)
    /\ login env0 (post alice) w1 = (Ok (json 200 (VObj [("token", VStr alice_token)])), w2)
    /\ get_user env0 (get (Some ("Bearer " ++ alice_token))) w2 = (Ok (send 200 "Welcome User"), w2)
    /\ get_admin env0 (get (Some ("Bearer " ++ alice_token))) w2 = (Ok (sendStatus 403), w2)
    /\ get_user env0 (get None) w2 = (Ok (sendStatus 401), w2).
Proof. eexists _, _. repeat split; vm_compute; reflexivity. Qed.

(** An unauthenticated client that registers as admin gets through the
    admin route with the token of its login. *)
Example self_made_admin :
  exists w1 token w2,
    register env0 (post root) with_alice =
      (Ok (json 201 (user_json (User.mk 2 "r@x.com" "875$10$salt" "admin"))), w1)
    /\ login env0 (post root) w1 = (Ok (json 200 (VObj [("token", VStr token)])), w2)
    /\ get_admin env0 (get (Some ("Bearer " ++ token))) w2 = (Ok (send 200 "Welcome Admin"), w2).
Proof. eexists _, _, _. repeat split; vm_compute; reflexivity. Qed.

Example no_token_in_header :
  fst (get_user env0 (get (Some "Bearer")) with_alice) = Ok (sendStatus 401)
  /\ fst (get_user env0 (get (Some "Bearer ")) with_alice) = Ok (sendStatus 401)
  /\ fst (get_user env0 (get (Some "Bearer  x")) with_alice) = Ok (sendStatus 401).
Proof. repeat split; vm_compute; reflexivity. Qed.

Example forged_or_expired_token :
  fst (get_user env0 (get (Some "Bearer abc.def")) with_alice) = Ok (sendStatus 403)
  /\ fst (get_user late (get (Some ("Bearer " ++ alice_token))) with_alice) = Ok (sendStatus 403)
  /\ fst (get_admin late (get (Some ("Bearer " ++ alice_token))) with_alice) = Ok (sendStatus 403).
Proof. repeat split; vm_compute; reflexivity. Qed.

(** C1, refuted as stated: the body of the 201 response has a [password]
    property, and it is the hash stored for the user. *)
Lemma register_response_exposes_hash :
  fst (register env0 (post alice) empty) =
    Ok (mkResponse 201
          (Json (VObj [("id", VNum 1); ("email", VStr "a@x.com");
                       ("password", VStr "867$10$salt"); ("role", VStr "user")])))
  /\ users (snd (register env0 (post alice) empty)) !! "a@x.com" =
       Some (User.mk 1 "a@x.com" "867$10$salt" "user")
  /\ bcrypt_digest "pw1" 10 (entropy env0) = "867$10$salt".
Proof. repeat split; vm_compute; reflexivity. Qed.

Lemma register_response_is_stored_row_witness :
  exists user pw,
    json 201 (user_json alice_row) = json 201 (user_json user)
    /\ users (snd (register env0 (post alice) empty)) !! User.email user = Some user
    /\ property (req_body (post alice)) "password" = Ok (VStr pw)
    /\ User.password user = bcrypt_digest pw 10 (entropy env0)
    /\ property (user_json user) "password" = Ok (VStr (User.password user)).
Proof.
  apply (register_response_is_stored_row env0 (post alice) empty
           (json 201 (user_json alice_row)) (snd (register env0 (post alice) empty)));
    vm_compute; reflexivity.
Defined.

(** C2, on the code: a login without a password, for an email nobody
    registered, is answered 401 after the store was queried; for a
    registered email the comparison throws; without an email the store
    client throws.  None is answered 400, and none stops short of the
    store. *)
Lemma login_does_not_validate :
  login env0 (post alice_no_password) empty =
    (Ok (send 401 "Invalid email or password"), mkWorld ∅ 1 [EvFindUnique])
  /\ login env0 (post alice_no_password) with_alice =
       (Throw BcryptIllegalArguments,
        mkWorld (users with_alice) 2 [EvFindUnique; EvCompare])
  /\ login env0 (post no_email) with_alice =
       (Throw PrismaClientValidationError, mkWorld (users with_alice) 2 [EvFindUnique]).
Proof. repeat split; vm_compute; reflexivity. Qed.

Lemma register_refused_witness :
  register env0 (post no_email) with_alice =
    (Ok (send 400 "Email and password are required"), with_alice).
Proof.
  apply (register_refused env0 (post no_email) with_alice VUndefined (VStr "pw1") VUndefined);
    [done | done | done | by left].
Defined.

Lemma login_after_any_traffic_witness :
  exists token,
    fst (login late (post alice)
           (serve_all [(env0, PostRegister, post alice);
                       (env0, PostRegister, post alice_other_password);
                       (env0, PostLogout, post VUndefined);
                       (env0, PostRegister, post root)] empty)) =
      Ok (json 200 (VObj [("token", VStr token)])).
Proof.
  apply (login_after_any_traffic env0 late (post alice) (post alice)
           [(env0, PostRegister, post alice_other_password);
            (env0, PostLogout, post VUndefined);
            (env0, PostRegister, post root)]
           empty "a@x.com" "pw1" VUndefined "user" "s3cret"); done.
Defined.

Lemma register_then_login_witness :
  exists user w1 token w2,
    register env0 (post alice) empty = (Ok (json 201 (user_json user)), w1)
    /\ login env0 (post alice) w1 = (Ok (json 200 (VObj [("token", VStr token)])), w2)
    /\ User.email user = "a@x.com"
    /\ jwt_verify env0 token (JWT_SECRET env0) =
         inr (Jwt.mkClaims (User.id user) (User.role user) (now env0) (now env0 + 3600)%N).
Proof.
  apply (register_then_login env0 env0 (post alice) (post alice) empty
           "a@x.com" "pw1" VUndefined "user" "s3cret"); done.
Defined.

Lemma login_failures_indistinguishable_witness :
  fst (login env0 (post alice) empty) = Ok (send 401 "Invalid email or password")
  /\ fst (login env0 (post alice_other_password) with_alice) =
       fst (login env0 (post alice) empty).
Proof.
  apply (login_failures_indistinguishable env0 env0 (post alice) (post alice_other_password)
           empty with_alice "a@x.com" "a@x.com" (VStr "pw1") "pw2" alice_row);
    vm_compute; reflexivity.
Defined.

Lemma non_admin_forbidden_on_admin_only_witness :
  get_admin env0 (get (Some ("Bearer " ++ alice_token))) with_alice =
    (Ok (sendStatus 403), with_alice)
  /\ status (sendStatus 403) = 403%nat
  /\ get_user env0 (get (Some ("Bearer " ++ alice_token))) with_alice =
       (Ok (send 200 "Welcome User"), with_alice).
Proof.
  apply (non_admin_forbidden_on_admin_only env0 (get (Some ("Bearer " ++ alice_token)))
           with_alice alice_token (Jwt.mkClaims 1 "user" 1700000000 1700003600));
    [vm_compute; reflexivity | done | vm_compute; reflexivity | done].
Defined.

Lemma register_duplicate_email_witness :
  fst (register env0 (post alice_other_password) with_alice) =
    Ok (send 400 "User already exists")
  /\ send 400 "User already exists" <> send 400 "Email and password are required"
  /\ users (snd (register env0 (post alice_other_password) with_alice)) = users with_alice
  /\ users (snd (register env0 (post alice_other_password) with_alice)) !! "a@x.com" =
       Some alice_row.
Proof.
  apply (register_duplicate_email env0 (post alice_other_password) with_alice
           "a@x.com" "pw2" VUndefined alice_row); try done.
Defined.

Lemma token_accepted_until_expiry_witness :
  exists token user,
    json 200 (VObj [("token", VStr alice_token)]) = json 200 (VObj [("token", VStr token)])
    /\ Jwt.iat user = now env0
    /\ Jwt.exp user = (now env0 + 3600)%N
    /\ forall env' req' w'',
         JWT_SECRET env' = JWT_SECRET env0 ->
         headers_authorization req' = Some ("Bearer " ++ token) ->
         authenticateJWT env' req' w'' =
           (Ok (if (now env' <? now env0 + 3600)%N
                then Next (mkRequest (req_body req') (headers_authorization req') (Some user))
                else Respond (sendStatus 403)),
            w'').
Proof.
  apply (token_accepted_until_expiry env0 (post alice) with_alice
           (json 200 (VObj [("token", VStr alice_token)]))
           (snd (login env0 (post alice) with_alice)));
    vm_compute; reflexivity.
Defined.

Lemma register_with_chosen_role_witness :
  exists user w1,
    register env0 (post root) with_alice = (Ok (json 201 (user_json user)), w1)
    /\ users w1 !! "r@x.com" = Some user
    /\ User.role user = "admin"
    /\ ("admin" = "admin" ->
        forall env' req' key env'' req'',
          property (req_body req') "email" = Ok (VStr "r@x.com") ->
          property (req_body req') "password" = Ok (VStr "pw9") ->
          JWT_SECRET env' = Some key -> key <> "" ->
          JWT_SECRET env'' = Some key ->
          (now env'' < now env' + 3600)%N ->
          exists token w2,
            login env' req' w1 = (Ok (json 200 (VObj [("token", VStr token)])), w2)
            /\ (headers_authorization req'' = Some ("Bearer " ++ token) ->
                get_admin env'' req'' w2 = (Ok (send 200 "Welcome Admin"), w2))).
Proof.
  apply (register_with_chosen_role env0 (post root) with_alice "r@x.com" "pw9" "admin");
    done.
Defined.

Lemma role_decides_admin_access_witness :
  exists row w1 token w2,
    register env0 (post alice) empty = (Ok (json 201 (user_json row)), w1)
    /\ User.role row = "user"
    /\ (truthy VUndefined = false -> "user" = "user")
    /\ login env0 (post alice) w1 = (Ok (json 200 (VObj [("token", VStr token)])), w2)
    /\ (headers_authorization (get (Some ("Bearer " ++ alice_token))) =
          Some ("Bearer " ++ token) ->
        get_user env0 (get (Some ("Bearer " ++ alice_token))) w2 =
          (Ok (send 200 "Welcome User"), w2)
        /\ get_admin env0 (get (Some ("Bearer " ++ alice_token))) w2 =
             (Ok (if String.eqb "user" "admin" then send 200 "Welcome Admin"
                  else sendStatus 403), w2)).
Proof.
  apply (role_decides_admin_access env0 env0 env0 (post alice) (post alice)
           (get (Some ("Bearer " ++ alice_token))) empty
           "a@x.com" "pw1" VUndefined "user" "s3cret"); done.
Defined.

Lemma authorization_scheme_is_ignored_witness :
  bearer_token (mkRequest VUndefined (Some ("Basic " ++ alice_token)) None) = Some alice_token
  /\ bearer_token (mkRequest VUndefined (Some ("Basic " ++ alice_token ++ " " ++ "x y")) None) =
       Some alice_token
  /\ get_user env0 (mkRequest VUndefined (Some ("Basic " ++ alice_token)) None) with_alice =
       get_user env0 (mkRequest VUndefined (Some ("Bearer " ++ alice_token)) None) with_alice
  /\ get_user env0 (mkRequest VUndefined (Some ("Basic " ++ alice_token ++ " " ++ "x y")) None)
         with_alice =
       get_user env0 (mkRequest VUndefined (Some ("Bearer " ++ alice_token)) None) with_alice
  /\ get_admin env0 (mkRequest VUndefined (Some ("Basic " ++ alice_token)) None) with_alice =
       get_admin env0 (mkRequest VUndefined (Some ("Bearer " ++ alice_token)) None) with_alice
  /\ get_admin env0 (mkRequest VUndefined (Some ("Basic " ++ alice_token ++ " " ++ "x y")) None)
         with_alice =
       get_admin env0 (mkRequest VUndefined (Some ("Bearer " ++ alice_token)) None) with_alice.
Proof.
  apply (authorization_scheme_is_ignored env0 "Basic" alice_token "x y" VUndefined None
           with_alice); vm_compute; reflexivity.
Defined.

Lemma login_compares_only_for_known_email_witness :
  trace (snd (login env0 (post alice_no_password) with_alice)) =
    (trace with_alice ++ match users with_alice !! "a@x.com" with
                         | Some _ => [EvFindUnique; EvCompare]
                         | None => [EvFindUnique]
                         end)%list.
Proof.
  apply (login_compares_only_for_known_email env0 (post alice_no_password) with_alice
           "a@x.com" VUndefined); done.
Defined.

Lemma register_unhandled_on_non_string_password_witness :
  register env0 (post numeric_password) with_alice =
    (Throw BcryptIllegalArguments,
     mkWorld (users with_alice) (next_id with_alice) (trace with_alice ++ [EvHash])).
Proof.
  apply (register_unhandled_on_non_string_password env0 (post numeric_password) with_alice
           (VStr "n@x.com") (VNum 123456) VUndefined); done.
Defined.

Lemma register_reports_any_create_failure_as_conflict_witness :
  users with_alice !! "n@x.com" = None
  /\ register env0 (post numeric_role) with_alice =
       (Ok (send 400 "User already exists"),
        mkWorld (users with_alice) (next_id with_alice)
          ((trace with_alice ++ [EvHash]) ++ [EvCreate])).
Proof.
  split; [done|].
  apply (register_reports_any_create_failure_as_conflict env0 (post numeric_role) with_alice
           (VStr "n@x.com") "pw5" (VNum 7)); try done.
  right. intros r. vm_compute. discriminate.
Defined.

Lemma without_secret_nothing_is_accepted_witness :
  (forall req w e pw row,
     property (req_body req) "email" = Ok (VStr e) ->
     property (req_body req) "password" = Ok (VStr pw) ->
     users w !! e = Some row ->
     bcrypt_check pw (User.password row) = true ->
     login no_secret req w =
       (Throw JwtSecretMissing,
        mkWorld (users w) (next_id w) ((trace w ++ [EvFindUnique]) ++ [EvCompare])))
  /\ (forall req w resp,
        fst (get_user no_secret req w) = Ok resp \/ fst (get_admin no_secret req w) = Ok resp ->
        status resp = 401%nat \/ status resp = 403%nat).
Proof. apply (without_secret_nothing_is_accepted no_secret). by left. Defined.

Example login_without_secret :
  login no_secret (post alice) with_alice =
    (Throw JwtSecretMissing, mkWorld (users with_alice) 2 [EvFindUnique; EvCompare])
  /\ fst (get_user no_secret (get (Some ("Bearer " ++ alice_token))) with_alice) =
       Ok (sendStatus 403).
Proof. split; vm_compute; reflexivity. Qed.

Lemma email_cannot_be_registered_twice_witness :
  fst (register late (post alice_other_password)
         (serve_all [(env0, PostRegister, post alice); (env0, PostLogin, post alice);
                     (env0, PostRegister, post root)] empty)) =
    Ok (send 400 "User already exists")
  /\ users (snd (register late (post alice_other_password)
                   (serve_all [(env0, PostRegister, post alice); (env0, PostLogin, post alice);
                               (env0, PostRegister, post root)] empty))) !! "a@x.com" =
       Some (User.mk (next_id empty) "a@x.com" (bcrypt_digest "pw1" 10 (entropy env0)) "user").
Proof.
  apply (email_cannot_be_registered_twice env0 late (post alice) (post alice_other_password)
           [(env0, PostLogin, post alice); (env0, PostRegister, post root)]
           empty "a@x.com" "pw1" "pw2" VUndefined VUndefined "user"); done.
Defined.

Lemma authenticateJWT_contract_witness :
  authenticateJWT env0 (get None) with_alice = (Ok (Respond (sendStatus 401)), with_alice)
  /\ authenticateJWT env0 (get (Some "Bearer")) with_alice =
       (Ok (Respond (sendStatus 401)), with_alice)
  /\ authenticateJWT env0 (get (Some "Bearer abc.def")) with_alice =
       (Ok (Respond (sendStatus 403)), with_alice)
  /\ authenticateJWT late (get (Some ("Bearer " ++ alice_token))) with_alice =
       (Ok (Respond (sendStatus 403)), with_alice)
  /\ authenticateJWT env0 (get (Some ("Bearer " ++ alice_token))) with_alice =
       (Ok (Next (mkRequest VUndefined (Some ("Bearer " ++ alice_token)) (Some alice_claims))),
        with_alice)
  /\ get_user env0 (get (Some ("Bearer " ++ alice_token))) with_alice =
       (Ok (send 200 "Welcome User"), with_alice)
  /\ get_admin env0 (get (Some "Bearer abc.def")) with_alice =
       (Ok (sendStatus 403), with_alice).
Proof.
  split_and!.
  - by apply (authenticateJWT_contract env0 (get None) with_alice).
  - destruct (authenticateJWT_contract env0 (get (Some "Bearer")) with_alice)
      as (_ & Hno & _).
    by apply (Hno "Bearer").
  - destruct (authenticateJWT_contract env0 (get (Some "Bearer abc.def")) with_alice)
      as (_ & _ & Hforged & _).
    by apply (Hforged "Bearer abc.def" "s3cret" "abc.def").
  - destruct (authenticateJWT_contract late (get (Some ("Bearer " ++ alice_token))) with_alice)
      as (_ & _ & _ & Hexpired & _).
    by apply (Hexpired ("Bearer " ++ alice_token) "s3cret" alice_token alice_claims).
  - destruct (authenticateJWT_contract env0 (get (Some ("Bearer " ++ alice_token))) with_alice)
      as (_ & _ & _ & _ & Hvalid & _).
    by apply (Hvalid ("Bearer " ++ alice_token) "s3cret" alice_token alice_claims).
  - destruct (authenticateJWT_contract env0 (get (Some ("Bearer " ++ alice_token))) with_alice)
      as (_ & _ & _ & _ & Hvalid & _).
    by apply (Hvalid ("Bearer " ++ alice_token) "s3cret" alice_token alice_claims).
  - destruct (authenticateJWT_contract env0 (get (Some "Bearer abc.def")) with_alice)
      as (_ & _ & Hforged & _ & _ & Hrespond & _).
    apply Hrespond.
    by apply (Hforged "Bearer abc.def" "s3cret" "abc.def").
Defined.

(** C7, refuted as stated: for a registered email, an empty password is
    answered by the validation failure, not by the conflict, and a numeric
    one makes the handler throw. *)
Lemma register_duplicate_with_other_passwords :
  users with_alice !! "a@x.com" = Some alice_row
  /\ fst (register env0 (post alice_empty_password) with_alice) =
       Ok (send 400 "Email and password are required")
  /\ fst (register env0 (post alice_empty_password) with_alice) <>
       Ok (send 400 "User already exists")
  /\ fst (register env0 (post alice_numeric_password) with_alice) =
       Throw BcryptIllegalArguments.
Proof. split_and!; vm_compute; (reflexivity || discriminate). Qed.

Lemma protected_routes_answer_witness :
  exists ru ra,
    get_user env0 (get (Some ("Bearer " ++ alice_token))) with_alice = (Ok ru, with_alice)
    /\ get_admin env0 (get (Some ("Bearer " ++ alice_token))) with_alice = (Ok ra, with_alice)
    /\ status ru = 200%nat
    /\ status ra <> 200%nat.
Proof.
  destruct (protected_routes_answer env0 (get (Some ("Bearer " ++ alice_token))) with_alice)
    as (ru & ra & Hu & Ha & Hiu & Hia).
  exists ru, ra. split_and!; [done | done | |].
  - apply Hiu. exists ("Bearer " ++ alice_token), alice_token, alice_claims.
    split_and!; [done | done | done | vm_compute; reflexivity].
  - intros (header & t & user & [= <-] & [= <-] & _ & Hv & Hrole)%Hia.
    vm_compute in Hv. injection Hv as <-. discriminate Hrole.
Defined.

End Run.
